(** * AI expert chat (app.py): a shallow embedding and its properties

    The application is one Python script.  Its top level loads the API key,
    defines [get_llm_response], and renders a Streamlit form.  Everything the
    script does to the outside (Streamlit calls, [print], the construction of
    the HTTP and chat clients, the remote invocation) is recorded as an
    [Event] in a trace; what the outside answers is read from a [World]. *)

From Stdlib Require Import String Ascii NArith List.
From Stdlib Require Import Floats.PrimFloat.
From stdpp Require Import base decidable option list gmap.

Set Warnings "-inexact-float".

Local Open Scope N_scope.

(** ** Python strings

    A Python [str] is a sequence of Unicode code points.  The literals of
    the source file are written here as they are in the file (UTF-8) and
    decoded by [u8]. *)

Definition str := list N.

Definition byte_of_ascii (a : ascii) : N := N_of_ascii a.

Fixpoint bytes_of_string (s : string) : list N :=
  match s with
  | EmptyString => []
  | String a r => byte_of_ascii a :: bytes_of_string r
  end.

Definition cont (b : N) : N := N.land b 63.

Fixpoint utf8_decode (bs : list N) : list N :=
  match bs with
  | [] => []
  | b0 :: r0 =>
      if b0 <? 128 then b0 :: utf8_decode r0
      else if b0 <? 224 then
        match r0 with
        | b1 :: r1 =>
            N.lor (N.shiftl (N.land b0 31) 6) (cont b1) :: utf8_decode r1
        | _ => []
        end
      else if b0 <? 240 then
        match r0 with
        | b1 :: b2 :: r2 =>
            N.lor (N.shiftl (N.land b0 15) 12)
                  (N.lor (N.shiftl (cont b1) 6) (cont b2)) :: utf8_decode r2
        | _ => []
        end
      else
        match r0 with
        | b1 :: b2 :: b3 :: r3 =>
            N.lor (N.shiftl (N.land b0 7) 18)
                  (N.lor (N.shiftl (cont b1) 12)
                         (N.lor (N.shiftl (cont b2) 6) (cont b3)))
              :: utf8_decode r3
        | _ => []
        end
  end.

Definition u8 (s : string) : str := utf8_decode (bytes_of_string s).

(** [a == b] on two [str] values. *)
Definition str_eq (a b : str) : bool := bool_decide (a = b).

(** Truth value of a [str] ([not s] is [negb (truthy s)]). *)
Definition truthy (s : str) : bool :=
  match s with [] => false | _ :: _ => true end.

(** Truth value of an [Optional[str]], the type of [os.getenv]'s result. *)
Definition truthy_opt (o : option str) : bool :=
  match o with None => false | Some s => truthy s end.

(** [str.isspace] on one code point: the table of CPython's
    [_PyUnicode_IsWhitespace]. *)
Definition isspace (c : N) : bool :=
  ((9 <=? c) && (c <=? 13)) || ((28 <=? c) && (c <=? 32))
  || (c =? 133) || (c =? 160) || (c =? 5760)
  || ((8192 <=? c) && (c <=? 8202))
  || (c =? 8232) || (c =? 8233) || (c =? 8239) || (c =? 8287)
  || (c =? 12288).

Fixpoint lstrip (s : str) : str :=
  match s with
  | [] => []
  | c :: r => if isspace c then lstrip r else s
  end.

Definition rstrip (s : str) : str := rev (lstrip (rev s)).

(** [s.strip()] with no argument. *)
Definition strip (s : str) : str := rstrip (lstrip s).

(** ** The persona instruction (lines 34-40 of app.py) *)

Definition system_message_content (expert_type : str) : str :=
  if str_eq expert_type (u8 "心理カウンセラー") then
    u8 "あなたは経験豊富で共感力の高い心理カウンセラーです。利用者の悩みや感情に寄り添い、専門的な知識に基づいて具体的かつ建設的なアドバイスをしてください。"
  else if str_eq expert_type (u8 "健康アドバイザー") then
    u8 "あなたは知識が豊富で信頼できる健康アドバイザーです。栄養、運動、生活習慣に関する質問に対し、科学的根拠に基づいた分かりやすい情報と実践的なアドバイスを提供してください。"
  else
    u8 "あなたは親切で有能なAIアシスタントです。".

(** ** Values of the libraries the script uses *)

(** A raised Python exception: its class name, whether the class derives
    from [Exception] (what [except Exception] tests), and [str(e)] (what an
    f-string prints for [{e}]). *)
Record BaseException := {
  exc_type : str;
  isinstance_Exception : bool;
  exc_str : str
}.

(** The keyword arguments of [httpx.Client(...)]; the object built keeps
    them. *)
Record httpx_Client := {
  proxies : option str;
  trust_env : bool
}.

(** The keyword arguments of [ChatOpenAI(...)]; the object built keeps
    them. *)
Record ChatOpenAI := {
  model_name : str;
  temperature : float;
  openai_api_key : option str;
  http_client : httpx_Client
}.

Inductive Role := system | user.

Inductive BaseMessage :=
| SystemMessage (content : str)
| HumanMessage (content : str).

Definition role (m : BaseMessage) : Role :=
  match m with SystemMessage _ => system | HumanMessage _ => user end.

Definition message_content (m : BaseMessage) : str :=
  match m with SystemMessage c => c | HumanMessage c => c end.

(** The value [chat.invoke] returns; the script reads [response.content]. *)
Record AIMessage := { content : str }.

(** ** Effects: a trace of events and an outcome *)

Inductive Event :=
| st_error (body : str)
| st_stop
| st_title (body : str)
| st_markdown (body : str)
| st_radio (label : str) (options : list str) (index : N)
| st_text_area (label : str) (height : N)
| st_button (label : str)
| st_warning (body : str)
| st_spinner_enter (text : str)
| st_spinner_exit
| st_subheader (body : str)
| st_write (body : str)
| print (line : str)
| new_httpx_Client (args : httpx_Client)
| new_ChatOpenAI (args : ChatOpenAI)
| chat_invoke (chat : ChatOpenAI) (messages : list BaseMessage)
| call_get_llm_response (user_input expert_type : str).

Inductive Outcome (A : Type) :=
| Returns (a : A)
| Raises (e : BaseException).
Arguments Returns {A} a.
Arguments Raises {A} e.

(** A computation of the script: the events it caused, in order, and how it
    ended. *)
Definition Py (A : Type) : Type := list Event * Outcome A.

Definition trace {A} (m : Py A) : list Event := fst m.
Definition outcome {A} (m : Py A) : Outcome A := snd m.

#[export] Instance Py_ret : MRet Py := λ A a, ([], Returns a).

#[export] Instance Py_bind : MBind Py := λ A B f m,
  match m with
  | (t, Returns a) => let r := f a in (t ++ fst r, snd r)
  | (t, Raises e) => (t, Raises e)
  end.

Definition emit (ev : Event) : Py unit := ([ev], Returns tt).

Definition raise {A} (e : BaseException) : Py A := ([], Raises e).

(** [try: body  except Exception as e: handler e].  An exception whose class
    does not derive from [Exception] is not caught. *)
Definition try_except_Exception {A} (body : Py A)
    (handler : BaseException → Py A) : Py A :=
  match body with
  | (t, Returns a) => (t, Returns a)
  | (t, Raises e) =>
      if isinstance_Exception e
      then let r := handler e in (t ++ fst r, snd r)
      else (t, Raises e)
  end.

(** [with st.spinner(text): body]: the spinner is removed however the body
    ends. *)
Definition with_st_spinner {A} (text : str) (body : Py A) : Py A :=
  (st_spinner_enter text :: fst body ++ [st_spinner_exit], snd body).

(** ** The world outside the script

    What the libraries answer.  Constructors may raise; the remote
    invocation returns a message or raises; each of the three widgets of
    the form returns the value the browser session holds for it. *)
Record World := {
  load_dotenv : gmap str str → gmap str str;
  httpx_Client_raises : httpx_Client → option BaseException;
  ChatOpenAI_raises : ChatOpenAI → option BaseException;
  invoke : ChatOpenAI → list BaseMessage → Outcome AIMessage;
  radio_value : str;
  text_area_value : str;
  button_value : bool
}.

Section Script.

Variable W : World.

Definition httpx_Client_new (args : httpx_Client) : Py httpx_Client :=
  ([new_httpx_Client args],
   match httpx_Client_raises W args with
   | Some e => Raises e
   | None => Returns args
   end).

Definition ChatOpenAI_new (args : ChatOpenAI) : Py ChatOpenAI :=
  ([new_ChatOpenAI args],
   match ChatOpenAI_raises W args with
   | Some e => Raises e
   | None => Returns args
   end).

Definition chat_invoke_call (chat : ChatOpenAI) (messages : list BaseMessage)
  : Py AIMessage :=
  ([chat_invoke chat messages], invoke W chat messages).

(** The two fixed strings [get_llm_response] returns on failure. *)
Definition init_failure_text : str :=
  u8 "モデルの初期化に失敗しました。設定を確認してください。".

Definition invoke_failure_text : str :=
  u8 "回答の取得中にエラーが発生しました。しばらくしてからもう一度お試しください。".

(** [get_llm_response] (lines 22-74).  [OPENAI_API_KEY] is the module-level
    variable the function reads.  The first [try] either binds [chat] or
    returns from the function; [inr] carries that early return. *)
Definition get_llm_response (OPENAI_API_KEY : option str)
    (user_input expert_type : str) : Py str :=
  emit (call_get_llm_response user_input expert_type);;
  let system_message_content := system_message_content expert_type in
  r ← try_except_Exception
        (custom_httpx_client ←
           httpx_Client_new {| proxies := None; trust_env := false |};
         chat ←
           ChatOpenAI_new {| model_name := u8 "gpt-3.5-turbo";
                             temperature := 0.7%float;
                             openai_api_key := OPENAI_API_KEY;
                             http_client := custom_httpx_client |};
         mret (inl chat))
        (λ e,
          emit (st_error
                  (u8 "OpenAIモデルの初期化中にエラーが発生しました: " ++ exc_str e));;
          emit (print (u8 "Error initializing OpenAI model: " ++ exc_str e));;
          mret (inr init_failure_text));
  match r with
  | inr early => mret early
  | inl chat =>
      let messages :=
        [SystemMessage system_message_content; HumanMessage user_input] in
      try_except_Exception
        (response ← chat_invoke_call chat messages;
         mret (content response))
        (λ e,
          emit (st_error
                  (u8 "LLMからの回答取得中にエラーが発生しました: " ++ exc_str e));;
          emit (print (u8 "Error getting response from LLM: " ++ exc_str e));;
          mret invoke_failure_text)
  end.

(** [st.stop()] ends the run of the script by raising Streamlit's
    [StopException], a script-control exception that does not derive from
    [Exception]. *)
Definition StopException : BaseException :=
  {| exc_type := u8 "StopException";
     isinstance_Exception := false;
     exc_str := [] |}.

Definition st_stop_call {A} : Py A := emit st_stop;; raise StopException.

Definition st_radio_call (label : str) (options : list str) (index : N)
  : Py str :=
  ([st_radio label options index], Returns (radio_value W)).

Definition st_text_area_call (label : str) (height : N) : Py str :=
  ([st_text_area label height], Returns (text_area_value W)).

Definition st_button_call (label : str) : Py bool :=
  ([st_button label], Returns (button_value W)).

(** The top level of app.py, run once from its first line to its last with
    the process environment [environ]. *)
Definition app (environ : gmap str str) : Py unit :=
  let environ := load_dotenv W environ in
  let OPENAI_API_KEY := environ !! u8 "OPENAI_API_KEY" in
  (if negb (truthy_opt OPENAI_API_KEY) then
     emit (st_error
             (u8 "OpenAI APIキーが設定されていません。.envファイルを確認してください。"));;
     st_stop_call
   else mret tt);;
  emit (st_title (u8 "AI専門家チャット"));;
  emit (st_markdown (u8 "
### アプリ概要
このアプリケーションでは、AIの専門家とチャットすることができます。
相談したい専門家のタイプを選び、下のフォームに質問や相談内容を入力してください。

### 操作方法
1.  **専門家を選択**: ラジオボタンから「心理カウンセラー」または「健康アドバイザー」を選びます。
2.  **相談内容を入力**: テキストエリアに、専門家に聞きたいことや相談したい内容を具体的に入力します。
3.  **送信**: 「回答を生成」ボタンをクリックすると、AI専門家からの回答が表示されます。
"));;
  let expert_options := [u8 "心理カウンセラー"; u8 "健康アドバイザー"] in
  selected_expert ←
    st_radio_call (u8 "相談したい専門家のタイプを選んでください:") expert_options 0;
  user_query ←
    st_text_area_call (selected_expert ++ u8 "への相談内容を入力してください:") 150;
  clicked ← st_button_call (u8 "回答を生成");
  if (clicked : bool) then
    if negb (truthy (strip user_query)) then
      emit (st_warning (u8 "相談内容を入力してください。"))
    else
      with_st_spinner (selected_expert ++ u8 "が考えています...")
        (llm_answer ←
           get_llm_response OPENAI_API_KEY user_query selected_expert;
         emit (st_subheader (selected_expert ++ u8 "からの回答:"));;
         emit (st_write llm_answer))
  else
    mret tt.

End Script.

(** ** The process

    Streamlit keeps one server process and runs the script from its first
    line to its last once for every request of a browser session (a page
    load, a widget interaction).  [st.stop()] ends the run it is called in.
    [load_dotenv] writes into [os.environ], so a run starts from the
    environment the run before it left.  A process is given here by the
    requests it receives, each with the world of its run; [serve] lists the
    runs it makes. *)
Fixpoint serve (environ : gmap str str) (requests : list World)
  : list (Py unit) :=
  match requests with
  | [] => []
  | W :: rest => app W environ :: serve (load_dotenv W environ) rest
  end.

(** ** Reading a trace *)

(** The message lists passed to [chat.invoke], in order. *)
Definition invoked_messages (t : list Event) : list (list BaseMessage) :=
  flat_map (λ ev, match ev with chat_invoke _ m => [m] | _ => [] end) t.

(** The chat clients [chat.invoke] was called on. *)
Definition invoked_chats (t : list Event) : list ChatOpenAI :=
  flat_map (λ ev, match ev with chat_invoke c _ => [c] | _ => [] end) t.

(** What the world answered to each [chat.invoke] of the trace. *)
Definition invoke_results (W : World) (t : list Event)
  : list (Outcome AIMessage) :=
  flat_map (λ ev, match ev with
                  | chat_invoke c m => [invoke W c m]
                  | _ => []
                  end) t.

(** The argument sets [httpx.Client] and [ChatOpenAI] were called with. *)
Definition httpx_Client_calls (t : list Event) : list httpx_Client :=
  flat_map (λ ev, match ev with new_httpx_Client a => [a] | _ => [] end) t.

Definition ChatOpenAI_calls (t : list Event) : list ChatOpenAI :=
  flat_map (λ ev, match ev with new_ChatOpenAI a => [a] | _ => [] end) t.

(** The exceptions the two constructors raised during the trace. *)
Definition construction_errors (W : World) (t : list Event)
  : list BaseException :=
  flat_map (λ ev, match ev with
                  | new_httpx_Client a =>
                      match httpx_Client_raises W a with
                      | Some e => [e]
                      | None => []
                      end
                  | new_ChatOpenAI a =>
                      match ChatOpenAI_raises W a with
                      | Some e => [e]
                      | None => []
                      end
                  | _ => []
                  end) t.

(** The calls of [get_llm_response] made during the trace. *)
Definition get_llm_response_calls (t : list Event) : list (str * str) :=
  flat_map (λ ev, match ev with
                  | call_get_llm_response u e => [(u, e)]
                  | _ => []
                  end) t.

(** Events that reach out of the process: building a client and invoking
    the remote model. *)
Definition is_remote (ev : Event) : bool :=
  match ev with
  | new_httpx_Client _ | new_ChatOpenAI _ | chat_invoke _ _ => true
  | _ => false
  end.

(** Events that render an input widget of the form. *)
Definition is_input_widget (ev : Event) : bool :=
  match ev with
  | st_radio _ _ _ | st_text_area _ _ | st_button _ => true
  | _ => false
  end.

(** The form was submitted in this run: the button was rendered and the
    session reports it clicked. *)
Definition submitted (W : World) (t : list Event) : bool :=
  existsb (λ ev, match ev with st_button _ => true | _ => false end) t
  && button_value W.

(** A class outside [Exception], for the examples. *)
Definition KeyboardInterrupt : BaseException :=
  {| exc_type := u8 "KeyboardInterrupt";
     isinstance_Exception := false;
     exc_str := [] |}.

Definition ConnectionError (msg : str) : BaseException :=
  {| exc_type := u8 "ConnectionError";
     isinstance_Exception := true;
     exc_str := msg |}.

(** ** The two ways a [try] block of [get_llm_response] is left *)

(** How a run ends when the exception [e] leaves a [try] block after the
    events [t]. *)
Definition after_init_error (e : BaseException) (t : list Event) : Py str :=
  if isinstance_Exception e then
    (t ++ [st_error
             (u8 "OpenAIモデルの初期化中にエラーが発生しました: " ++ exc_str e);
           print (u8 "Error initializing OpenAI model: " ++ exc_str e)],
     Returns init_failure_text)
  else (t, Raises e).

Definition after_invoke_error (e : BaseException) (t : list Event) : Py str :=
  if isinstance_Exception e then
    (t ++ [st_error
             (u8 "LLMからの回答取得中にエラーが発生しました: " ++ exc_str e);
           print (u8 "Error getting response from LLM: " ++ exc_str e)],
     Returns invoke_failure_text)
  else (t, Raises e).

(** ** Worlds and inputs for the examples *)

Definition answering (init_error_1 init_error_2 : option BaseException)
    (answer : Outcome AIMessage) (query : str) (clicked : bool) : World :=
  {| load_dotenv := λ environ, environ;
     httpx_Client_raises := λ _, init_error_1;
     ChatOpenAI_raises := λ _, init_error_2;
     invoke := λ _ _, answer;
     radio_value := u8 "心理カウンセラー";
     text_area_value := query;
     button_value := clicked |}.

Definition sample_query : str := u8 "I feel anxious about work".
Definition sample_key : option str := Some (u8 "sk-test").

(** The remote model answers [T]. *)
Definition world_ok (T : str) : World :=
  answering None None (Returns {| content := T |}) sample_query true.

(** The remote invocation raises [e]. *)
Definition world_invoke_raises (e : BaseException) : World :=
  answering None None (Raises e) sample_query true.

(** [httpx.Client(...)] raises [e]. *)
Definition world_httpx_raises (e : BaseException) : World :=
  answering (Some e) None (Returns {| content := [] |}) sample_query true.

(** [ChatOpenAI(...)] raises [e]. *)
Definition world_chat_raises (e : BaseException) : World :=
  answering None (Some e) (Returns {| content := [] |}) sample_query true.

(** The user submits a text area holding a space, an ideographic space and a
    newline. *)
Definition world_blank : World :=
  answering None None (Returns {| content := [] |}) [32; 12288; 10] true.

(** Events that report an error: to the page ([st.error]) and to the
    console ([print]). *)
Definition is_report (ev : Event) : bool :=
  match ev with
  | st_error _ | print _ => true
  | _ => false
  end.

(** Events that write the answer onto the page. *)
Definition is_st_write (ev : Event) : bool :=
  match ev with st_write _ => true | _ => false end.

(** An environment that holds the key, and one that holds it empty. *)
Definition environ_with_key : gmap str str :=
  {[ u8 "OPENAI_API_KEY" := u8 "sk-test" ]}.

Definition environ_with_empty_key : gmap str str :=
  {[ u8 "OPENAI_API_KEY" := [] ]}.

(** * Lemmas *)

(** The literals stay folded in proofs; [vm_compute] decodes them where a
    proof compares two of them. *)
Arguments u8 : simpl never.
Arguments system_message_content : simpl never.
Opaque u8.

Example u8_ascii : u8 "gpt" = [103; 112; 116].
Proof. vm_compute. reflexivity. Qed.

Example u8_kana : u8 "カ" = [12459].
Proof. vm_compute. reflexivity. Qed.

Example u8_len : length (u8 "心理カウンセラー") = 8%nat.
Proof. vm_compute. reflexivity. Qed.

(** ** The runs of [get_llm_response] *)

Section Runs.

Variable W : World.
Variable OPENAI_API_KEY : option str.
Variables user_input expert_type : str.

Let client := {| proxies := None; trust_env := false |}.
Let chat := {| model_name := u8 "gpt-3.5-turbo";
               temperature := 0.7%float;
               openai_api_key := OPENAI_API_KEY;
               http_client := client |}.
Let messages :=
  [SystemMessage (system_message_content expert_type);
   HumanMessage user_input].
Let entered := call_get_llm_response user_input expert_type.

(** Every run of [get_llm_response] is one of five, chosen by what the
    world answers. *)
Lemma get_llm_response_run :
  get_llm_response W OPENAI_API_KEY user_input expert_type =
  match httpx_Client_raises W client with
  | Some e => after_init_error e [entered; new_httpx_Client client]
  | None =>
      match ChatOpenAI_raises W chat with
      | Some e =>
          after_init_error e
            [entered; new_httpx_Client client; new_ChatOpenAI chat]
      | None =>
          match invoke W chat messages with
          | Raises e =>
              after_invoke_error e
                [entered; new_httpx_Client client; new_ChatOpenAI chat;
                 chat_invoke chat messages]
          | Returns response =>
              ([entered; new_httpx_Client client; new_ChatOpenAI chat;
                chat_invoke chat messages],
               Returns (content response))
          end
      end
  end.
Proof.
  unfold get_llm_response, after_init_error, after_invoke_error,
    httpx_Client_new, ChatOpenAI_new, chat_invoke_call, emit.
  cbn.
  destruct (httpx_Client_raises W _) as [e|]; cbn.
  { destruct (isinstance_Exception e); reflexivity. }
  destruct (ChatOpenAI_raises W _) as [e|]; cbn.
  { destruct (isinstance_Exception e); reflexivity. }
  destruct (invoke W _ _) as [r|e]; cbn; [reflexivity|].
  destruct (isinstance_Exception e); reflexivity.
Qed.

End Runs.

Arguments get_llm_response : simpl never.
Arguments strip : simpl never.

(** Case analysis on the five runs, leaving the trace as an explicit list. *)
Ltac run_cases :=
  rewrite ?get_llm_response_run in *;
  unfold after_init_error, after_invoke_error,
    init_failure_text, invoke_failure_text in *;
  repeat case_match; cbn in *.

(** Put the world's answers, recorded by [run_cases], back into what is
    read from the trace. *)
Ltac world_answers :=
  repeat match goal with
         | H : httpx_Client_raises _ _ = _ |- _ => progress rewrite H in *
         | H : ChatOpenAI_raises _ _ = _ |- _ => progress rewrite H in *
         | H : invoke _ _ _ = _ |- _ => progress rewrite H in *
         end.

(** Membership in an explicit trace, one element at a time. *)
Ltac trace_mem :=
  repeat match goal with
         | H : _ ∈ [] |- _ => destruct (not_elem_of_nil _ H)
         | H : _ ∈ _ :: _ |- _ => apply elem_of_cons in H as [H|H]
         end.

Ltac run_solve :=
  run_cases; world_answers; cbn in *; trace_mem; try congruence.

(** The fallback branch is taken exactly off the two known tags. *)
Lemma system_message_content_other (expert_type : str) :
  expert_type ≠ u8 "心理カウンセラー" →
  expert_type ≠ u8 "健康アドバイザー" →
  system_message_content expert_type = u8 "あなたは親切で有能なAIアシスタントです。".
Proof.
  intros H1 H2. unfold system_message_content, str_eq.
  rewrite !bool_decide_eq_false_2 by assumption. reflexivity.
Qed.

(** Whatever the world answers, a conversation that reaches [chat.invoke]
    is the pair built on lines 61-64. *)
Lemma invoked_messages_run W key (user_input expert_type : str) :
  invoked_messages (trace (get_llm_response W key user_input expert_type))
  ⊆ [[SystemMessage (system_message_content expert_type);
      HumanMessage user_input]].
Proof.
  intros m Hm. run_solve; subst m; apply list_elem_of_here.
Qed.

(** An exception leaves [get_llm_response] only if the world raised it. *)
Lemma raises_only_from_world W key (user_input expert_type : str) x :
  outcome (get_llm_response W key user_input expert_type) = Raises x →
  x ∈ construction_errors W
        (trace (get_llm_response W key user_input expert_type))
  ∨ Raises x ∈ invoke_results W
        (trace (get_llm_response W key user_input expert_type)).
Proof.
  intros Hx. run_solve.
  all: injection Hx as ->.
  all: first [ left; apply list_elem_of_here
             | right; apply list_elem_of_here ].
Qed.

(** The constructor calls of a run do not depend on the inputs. *)
Lemma httpx_Client_calls_run (W : World) (OPENAI_API_KEY : option str)
    (user_input expert_type : str) :
  httpx_Client_calls
    (trace (get_llm_response W OPENAI_API_KEY user_input expert_type))
  = [{| proxies := None; trust_env := false |}].
Proof. run_cases; reflexivity. Qed.

Lemma ChatOpenAI_calls_run (W : World) (OPENAI_API_KEY : option str)
    (user_input expert_type : str) :
  ChatOpenAI_calls
    (trace (get_llm_response W OPENAI_API_KEY user_input expert_type))
  = match httpx_Client_raises W {| proxies := None; trust_env := false |} with
    | Some _ => []
    | None =>
        [{| model_name := u8 "gpt-3.5-turbo";
            temperature := 0.7%float;
            openai_api_key := OPENAI_API_KEY;
            http_client := {| proxies := None; trust_env := false |} |}]
    end.
Proof. run_cases; reflexivity. Qed.

(** ** Blank input *)

Lemma lstrip_blank (s : str) : forallb isspace s = true → lstrip s = [].
Proof.
  induction s as [|c r IH]; cbn; [reflexivity|].
  destruct (isspace c); cbn; [exact IH | discriminate].
Qed.

Lemma lstrip_nil_blank (s : str) : lstrip s = [] → forallb isspace s = true.
Proof.
  induction s as [|c r IH]; cbn; [reflexivity|].
  destruct (isspace c); cbn; [exact IH | discriminate].
Qed.

Lemma strip_blank (s : str) : forallb isspace s = true → strip s = [].
Proof.
  intros H. unfold strip, rstrip. rewrite (lstrip_blank s H). reflexivity.
Qed.

Lemma lstrip_head (s : str) :
  lstrip s = [] ∨ ∃ c r, lstrip s = c :: r ∧ isspace c = false.
Proof.
  induction s as [|c r IH]; cbn; [by left|].
  destruct (isspace c) eqn:E; [exact IH|]. right. by exists c, r.
Qed.

(** [not s.strip()] holds exactly for the strings made of whitespace only
    (the empty one among them). *)
Lemma strip_nil_iff (s : str) : strip s = [] ↔ forallb isspace s = true.
Proof.
  split; [|apply strip_blank].
  unfold strip, rstrip. intros H.
  assert (Hr : lstrip (rev (lstrip s)) = []).
  { destruct (lstrip (rev (lstrip s))) as [|a l]; [reflexivity|].
    apply (f_equal length) in H. rewrite length_rev in H. discriminate. }
  apply lstrip_nil_blank in Hr.
  destruct (lstrip_head s) as [Hs|(c & r & Hs & Hc)].
  - by apply lstrip_nil_blank.
  - rewrite Hs in Hr. cbn in Hr. rewrite forallb_app in Hr. cbn in Hr.
    rewrite Hc in Hr. rewrite andb_false_r in Hr. discriminate.
Qed.

(** ** The runs of the script *)

(** Without a usable key the run is two events long and ends in
    [st.stop()]. *)
Lemma app_without_key (W : World) (environ : gmap str str) :
  truthy_opt (load_dotenv W environ !! u8 "OPENAI_API_KEY") = false →
  app W environ =
  ([st_error
      (u8 "OpenAI APIキーが設定されていません。.envファイルを確認してください。");
    st_stop],
   Raises StopException).
Proof. intros Hk. unfold app. rewrite Hk. reflexivity. Qed.

(** The button is reached only past the key check. *)
Lemma submitted_has_key (W : World) (environ : gmap str str) :
  submitted W (trace (app W environ)) = true →
  truthy_opt (load_dotenv W environ !! u8 "OPENAI_API_KEY") = true
  ∧ button_value W = true.
Proof.
  intros Hs.
  destruct (truthy_opt (load_dotenv W environ !! u8 "OPENAI_API_KEY")) eqn:Hk.
  - split; [reflexivity|]. unfold submitted in Hs.
    by apply andb_true_iff in Hs as [_ ?].
  - rewrite (app_without_key _ _ Hk) in Hs. discriminate.
Qed.

(** With a blank text area the run never enters the [else] branch of line
    106. *)
Lemma app_blank_query (W : World) (environ : gmap str str) :
  forallb isspace (text_area_value W) = true →
  get_llm_response_calls (trace (app W environ)) = []
  ∧ existsb is_remote (trace (app W environ)) = false
  ∧ (truthy_opt (load_dotenv W environ !! u8 "OPENAI_API_KEY") = true →
     button_value W = true →
     st_warning (u8 "相談内容を入力してください。") ∈ trace (app W environ)).
Proof.
  intros Hq. apply strip_blank in Hq.
  destruct (truthy_opt (load_dotenv W environ !! u8 "OPENAI_API_KEY")) eqn:Hk.
  - unfold app. rewrite Hk. cbn. rewrite Hq. cbn.
    destruct (button_value W); cbn; (split; [reflexivity|]);
      (split; [reflexivity|]); intros _ Hb; [|discriminate].
    set_solver.
  - rewrite (app_without_key _ _ Hk). cbn.
    split; [reflexivity|]. split; [reflexivity|]. discriminate.
Qed.

Example run_ok :
  get_llm_response (world_ok (u8 " T ")) sample_key sample_query
    (u8 "心理カウンセラー")
  = ([call_get_llm_response sample_query (u8 "心理カウンセラー");
      new_httpx_Client {| proxies := None; trust_env := false |};
      new_ChatOpenAI {| model_name := u8 "gpt-3.5-turbo";
                        temperature := 0.7%float;
                        openai_api_key := sample_key;
                        http_client :=
                          {| proxies := None; trust_env := false |} |};
      chat_invoke {| model_name := u8 "gpt-3.5-turbo";
                     temperature := 0.7%float;
                     openai_api_key := sample_key;
                     http_client :=
                       {| proxies := None; trust_env := false |} |}
        [SystemMessage
           (u8 "あなたは経験豊富で共感力の高い心理カウンセラーです。利用者の悩みや感情に寄り添い、専門的な知識に基づいて具体的かつ建設的なアドバイスをしてください。");
         HumanMessage sample_query]],
     Returns (u8 " T ")).
Proof. vm_compute. reflexivity. Qed.

Example strip_examples :
  strip (u8 "  a b ") = u8 "a b" ∧ strip (u8 "   ") = [] ∧ strip [] = []
  ∧ strip [12288; 9; 10] = [].
Proof. vm_compute. repeat split. Qed.

(** A whole run of the script: the key is set, the user asks the counselor
    and the model answers. *)
Example app_ok :
  outcome (app (world_ok (u8 "T")) {[ u8 "OPENAI_API_KEY" := u8 "sk-test" ]})
  = Returns tt
  ∧ get_llm_response_calls
      (trace (app (world_ok (u8 "T"))
                {[ u8 "OPENAI_API_KEY" := u8 "sk-test" ]}))
    = [(sample_query, u8 "心理カウンセラー")]
  ∧ last (trace (app (world_ok (u8 "T"))
                   {[ u8 "OPENAI_API_KEY" := u8 "sk-test" ]}))
    = Some st_spinner_exit
  ∧ st_write (u8 "T")
    ∈ trace (app (world_ok (u8 "T")) {[ u8 "OPENAI_API_KEY" := u8 "sk-test" ]}).
Proof.
  vm_compute. repeat split. repeat constructor.
Qed.

(** * The properties *)

(** C1. For each of the two known persona tags, the counselor tag
    and the health-advisor tag, [get_llm_response] resolves exactly the
    fixed instruction written for that tag: the lookup returns it, and it is
    the system message of every conversation the call hands to the remote
    invocation. *)
Theorem known_persona_instruction (W : World) (OPENAI_API_KEY : option str)
    (user_input : str) :
  system_message_content (u8 "心理カウンセラー")
  = u8 "あなたは経験豊富で共感力の高い心理カウンセラーです。利用者の悩みや感情に寄り添い、専門的な知識に基づいて具体的かつ建設的なアドバイスをしてください。"
  ∧ system_message_content (u8 "健康アドバイザー")
  = u8 "あなたは知識が豊富で信頼できる健康アドバイザーです。栄養、運動、生活習慣に関する質問に対し、科学的根拠に基づいた分かりやすい情報と実践的なアドバイスを提供してください。"
  ∧ invoked_messages
      (trace (get_llm_response W OPENAI_API_KEY user_input
                (u8 "心理カウンセラー")))
    ⊆ [[SystemMessage
          (u8 "あなたは経験豊富で共感力の高い心理カウンセラーです。利用者の悩みや感情に寄り添い、専門的な知識に基づいて具体的かつ建設的なアドバイスをしてください。");
        HumanMessage user_input]]
  ∧ invoked_messages
      (trace (get_llm_response W OPENAI_API_KEY user_input
                (u8 "健康アドバイザー")))
    ⊆ [[SystemMessage
          (u8 "あなたは知識が豊富で信頼できる健康アドバイザーです。栄養、運動、生活習慣に関する質問に対し、科学的根拠に基づいた分かりやすい情報と実践的なアドバイスを提供してください。");
        HumanMessage user_input]].
Proof.
  assert (H1 : system_message_content (u8 "心理カウンセラー")
    = u8 "あなたは経験豊富で共感力の高い心理カウンセラーです。利用者の悩みや感情に寄り添い、専門的な知識に基づいて具体的かつ建設的なアドバイスをしてください。")
    by (vm_compute; reflexivity).
  assert (H2 : system_message_content (u8 "健康アドバイザー")
    = u8 "あなたは知識が豊富で信頼できる健康アドバイザーです。栄養、運動、生活習慣に関する質問に対し、科学的根拠に基づいた分かりやすい情報と実践的なアドバイスを提供してください。")
    by (vm_compute; reflexivity).
  split; [exact H1|]. split; [exact H2|]. split.
  - rewrite <- H1. apply invoked_messages_run.
  - rewrite <- H2. apply invoked_messages_run.
Qed.

(** C2. For every user text (the non-empty ones in particular) and every
    persona tag, a conversation passed to the remote invocation has exactly
    two messages, in the order system then user; the first holds the
    resolved instruction and the second the user's input, unchanged. *)
Theorem conversation_is_system_then_user (W : World)
    (OPENAI_API_KEY : option str) (user_input expert_type : str)
    (messages : list BaseMessage) :
  messages ∈ invoked_messages
    (trace (get_llm_response W OPENAI_API_KEY user_input expert_type)) →
  length messages = 2%nat
  ∧ map role messages = [system; user]
  ∧ map message_content messages
    = [system_message_content expert_type; user_input]
  ∧ messages = [SystemMessage (system_message_content expert_type);
                HumanMessage user_input].
Proof.
  intros Hm. apply invoked_messages_run in Hm.
  apply list_elem_of_singleton in Hm. subst messages. repeat split.
Qed.

Lemma conversation_is_system_then_user_witness :
  [SystemMessage (system_message_content (u8 "健康アドバイザー"));
   HumanMessage (u8 "  How much water should I drink?  ")]
  ∈ invoked_messages
      (trace (get_llm_response (world_ok (u8 "2 liters")) sample_key
                (u8 "  How much water should I drink?  ")
                (u8 "健康アドバイザー")))
  ∧ map message_content
      [SystemMessage (system_message_content (u8 "健康アドバイザー"));
       HumanMessage (u8 "  How much water should I drink?  ")]
    = [system_message_content (u8 "健康アドバイザー");
       u8 "  How much water should I drink?  "].
Proof.
  assert (Hin :
    [SystemMessage (system_message_content (u8 "健康アドバイザー"));
     HumanMessage (u8 "  How much water should I drink?  ")]
    ∈ invoked_messages
        (trace (get_llm_response (world_ok (u8 "2 liters")) sample_key
                  (u8 "  How much water should I drink?  ")
                  (u8 "健康アドバイザー")))).
  { vm_compute. apply list_elem_of_here. }
  split; [exact Hin|].
  exact (proj1 (proj2 (proj2
    (conversation_is_system_then_user _ _ _ _ _ Hin)))).
Defined.

(** C3. For every [expert_type] other than the two known tags,
    [get_llm_response] does not fail on the tag: the fallback instruction is
    resolved, it is the system message of every conversation handed to the
    remote invocation, and an exception leaves the function only if a
    constructor or the remote invocation raised it. *)
Theorem unknown_persona_falls_back (W : World) (OPENAI_API_KEY : option str)
    (user_input expert_type : str) :
  expert_type ≠ u8 "心理カウンセラー" →
  expert_type ≠ u8 "健康アドバイザー" →
  system_message_content expert_type
  = u8 "あなたは親切で有能なAIアシスタントです。"
  ∧ invoked_messages
      (trace (get_llm_response W OPENAI_API_KEY user_input expert_type))
    ⊆ [[SystemMessage (u8 "あなたは親切で有能なAIアシスタントです。");
        HumanMessage user_input]]
  ∧ ∀ x,
      outcome (get_llm_response W OPENAI_API_KEY user_input expert_type)
      = Raises x →
      x ∈ construction_errors W
            (trace (get_llm_response W OPENAI_API_KEY user_input expert_type))
      ∨ Raises x ∈ invoke_results W
            (trace (get_llm_response W OPENAI_API_KEY user_input expert_type)).
Proof.
  intros H1 H2.
  pose proof (system_message_content_other expert_type H1 H2) as Hs.
  split; [exact Hs|]. split.
  - rewrite <- Hs. apply invoked_messages_run.
  - intros x. apply raises_only_from_world.
Qed.

Lemma unknown_persona_falls_back_witness :
  system_message_content (u8 "弁護士")
  = u8 "あなたは親切で有能なAIアシスタントです。"
  ∧ outcome (get_llm_response (world_ok (u8 "ok")) sample_key sample_query
               (u8 "弁護士"))
    = Returns (u8 "ok").
Proof.
  split.
  - refine (proj1 (unknown_persona_falls_back (world_ok (u8 "ok")) sample_key
                     sample_query (u8 "弁護士") _ _));
      intros H; vm_compute in H; discriminate H.
  - vm_compute. reflexivity.
Defined.

(** C4 as stated fails: [except Exception] does not catch an exception whose
    class is outside [Exception].  When the remote invocation raises
    [KeyboardInterrupt], [get_llm_response] returns nothing and the
    exception reaches the caller. *)
Lemma invoke_KeyboardInterrupt_propagates :
  Raises KeyboardInterrupt
  ∈ invoke_results (world_invoke_raises KeyboardInterrupt)
      (trace (get_llm_response (world_invoke_raises KeyboardInterrupt)
                sample_key sample_query (u8 "心理カウンセラー")))
  ∧ outcome (get_llm_response (world_invoke_raises KeyboardInterrupt)
               sample_key sample_query (u8 "心理カウンセラー"))
    = Raises KeyboardInterrupt
  ∧ outcome (get_llm_response (world_invoke_raises KeyboardInterrupt)
               sample_key sample_query (u8 "心理カウンセラー"))
    ≠ Returns
        (u8 "回答の取得中にエラーが発生しました。しばらくしてからもう一度お試しください。").
Proof.
  split; [vm_compute; apply list_elem_of_here|].
  split; [vm_compute; reflexivity|].
  intros H. vm_compute in H. discriminate H.
Qed.

(** C4, amended. If the remote invocation raises an exception that is an
    instance of [Exception], [get_llm_response] catches it, raises nothing
    to its caller, and returns the fixed invocation-failure string. *)
Theorem invocation_failure_is_absorbed (W : World)
    (OPENAI_API_KEY : option str) (user_input expert_type : str)
    (x : BaseException) :
  Raises x ∈ invoke_results W
    (trace (get_llm_response W OPENAI_API_KEY user_input expert_type)) →
  isinstance_Exception x = true →
  outcome (get_llm_response W OPENAI_API_KEY user_input expert_type)
  = Returns
      (u8 "回答の取得中にエラーが発生しました。しばらくしてからもう一度お試しください。").
Proof.
  intros Hx Hc. run_solve.
Qed.

Lemma invocation_failure_is_absorbed_witness :
  outcome (get_llm_response
             (world_invoke_raises (ConnectionError (u8 "timed out")))
             sample_key sample_query (u8 "心理カウンセラー"))
  = Returns
      (u8 "回答の取得中にエラーが発生しました。しばらくしてからもう一度お試しください。").
Proof.
  apply (invocation_failure_is_absorbed _ _ _ _
           (ConnectionError (u8 "timed out"))).
  - vm_compute. apply list_elem_of_here.
  - reflexivity.
Defined.

(** C5 as stated fails for the same reason: when [httpx.Client(...)] raises
    [KeyboardInterrupt] the first [try] does not catch it, no string is
    returned and the exception reaches the caller. *)
Lemma init_KeyboardInterrupt_propagates :
  KeyboardInterrupt
  ∈ construction_errors (world_httpx_raises KeyboardInterrupt)
      (trace (get_llm_response (world_httpx_raises KeyboardInterrupt)
                sample_key sample_query (u8 "心理カウンセラー")))
  ∧ outcome (get_llm_response (world_httpx_raises KeyboardInterrupt)
               sample_key sample_query (u8 "心理カウンセラー"))
    = Raises KeyboardInterrupt
  ∧ outcome (get_llm_response (world_httpx_raises KeyboardInterrupt)
               sample_key sample_query (u8 "心理カウンセラー"))
    ≠ Returns (u8 "モデルの初期化に失敗しました。設定を確認してください。").
Proof.
  split; [vm_compute; apply list_elem_of_here|].
  split; [vm_compute; reflexivity|].
  intros H. vm_compute in H. discriminate H.
Qed.

(** C5, amended. If client construction ([httpx.Client(...)] or
    [ChatOpenAI(...)]) raises an exception that is an instance of
    [Exception], [get_llm_response] returns the fixed initialization-failure
    string, which differs from the invocation-failure string; and whatever
    construction raises, the remote completion endpoint is not invoked for
    that request. *)
Theorem initialization_failure_sentinel (W : World)
    (OPENAI_API_KEY : option str) (user_input expert_type : str)
    (x : BaseException) :
  x ∈ construction_errors W
    (trace (get_llm_response W OPENAI_API_KEY user_input expert_type)) →
  (isinstance_Exception x = true →
   outcome (get_llm_response W OPENAI_API_KEY user_input expert_type)
   = Returns (u8 "モデルの初期化に失敗しました。設定を確認してください。"))
  ∧ u8 "モデルの初期化に失敗しました。設定を確認してください。"
    ≠ u8 "回答の取得中にエラーが発生しました。しばらくしてからもう一度お試しください。"
  ∧ invoked_messages
      (trace (get_llm_response W OPENAI_API_KEY user_input expert_type)) = []
  ∧ invoke_results W
      (trace (get_llm_response W OPENAI_API_KEY user_input expert_type)) = [].
Proof.
  intros Hx.
  assert (Hne : u8 "モデルの初期化に失敗しました。設定を確認してください。"
    ≠ u8 "回答の取得中にエラーが発生しました。しばらくしてからもう一度お試しください。")
    by (intros H; vm_compute in H; discriminate H).
  split; [|split; [exact Hne|]].
  - intros Hc. run_solve.
  - run_solve; split; reflexivity.
Qed.

Lemma initialization_failure_sentinel_witness :
  outcome (get_llm_response
             (world_chat_raises (ConnectionError (u8 "bad configuration")))
             sample_key sample_query (u8 "健康アドバイザー"))
  = Returns (u8 "モデルの初期化に失敗しました。設定を確認してください。")
  ∧ invoke_results
      (world_chat_raises (ConnectionError (u8 "bad configuration")))
      (trace (get_llm_response
                (world_chat_raises (ConnectionError (u8 "bad configuration")))
                sample_key sample_query (u8 "健康アドバイザー"))) = [].
Proof.
  assert (Hin : ConnectionError (u8 "bad configuration")
    ∈ construction_errors
        (world_chat_raises (ConnectionError (u8 "bad configuration")))
        (trace (get_llm_response
                  (world_chat_raises
                     (ConnectionError (u8 "bad configuration")))
                  sample_key sample_query (u8 "健康アドバイザー")))).
  { vm_compute. apply list_elem_of_here. }
  pose proof (initialization_failure_sentinel _ _ _ _ _ Hin) as H.
  split.
  - apply (proj1 H). reflexivity.
  - exact (proj2 (proj2 (proj2 H))).
Defined.

(** C6. For every input, if the remote invocation succeeds and returns the
    text [T], [get_llm_response] returns exactly [T]. *)
Theorem success_returns_text_verbatim (W : World)
    (OPENAI_API_KEY : option str) (user_input expert_type T : str) :
  Returns {| content := T |} ∈ invoke_results W
    (trace (get_llm_response W OPENAI_API_KEY user_input expert_type)) →
  outcome (get_llm_response W OPENAI_API_KEY user_input expert_type)
  = Returns T.
Proof.
  intros HT. run_solve. injection HT as <-. reflexivity.
Qed.

Lemma success_returns_text_verbatim_witness :
  outcome (get_llm_response (world_ok (u8 "  Take a walk.
  ")) sample_key sample_query (u8 "健康アドバイザー"))
  = Returns (u8 "  Take a walk.
  ").
Proof.
  apply success_returns_text_verbatim.
  vm_compute. apply list_elem_of_here.
Defined.

(** C7 as stated fails: [st.stop()] ends one run of the script, not the
    process.  With no key in the environment, a process that receives two
    requests runs the script for both: the second request is accepted and
    answered, by a run that reports the error and stops at line 18 like the
    first. *)
Lemma missing_key_process_keeps_serving :
  load_dotenv (world_ok (u8 "unused")) ∅ !! u8 "OPENAI_API_KEY" = None
  ∧ length (serve ∅ [world_ok (u8 "unused"); world_ok (u8 "unused")])
    = 2%nat
  ∧ serve ∅ [world_ok (u8 "unused"); world_ok (u8 "unused")] !! 1%nat
    = Some ([st_error
               (u8 "OpenAI APIキーが設定されていません。.envファイルを確認してください。");
             st_stop],
            Raises StopException).
Proof.
  split; [exact (lookup_empty _)|]. split; [reflexivity|].
  vm_compute. reflexivity.
Qed.

(** C7, amended. If the API key is absent from the environment, every run
    of the script halts at startup: it reports the error and stops at line
    18, before any input widget is rendered, before [get_llm_response] is
    ever called and before anything remote is touched, rather than failing
    at first use.  The process is not halted: it makes one such run for
    every request it receives. *)
Theorem missing_key_halts_every_run (environ : gmap str str)
    (requests : list World) :
  environ !! u8 "OPENAI_API_KEY" = None →
  (∀ (W : World) (env : gmap str str),
     W ∈ requests →
     env !! u8 "OPENAI_API_KEY" = None →
     load_dotenv W env !! u8 "OPENAI_API_KEY" = None) →
  length (serve environ requests) = length requests
  ∧ ∀ run : Py unit,
      run ∈ serve environ requests →
      run
      = ([st_error
            (u8 "OpenAI APIキーが設定されていません。.envファイルを確認してください。");
          st_stop],
         Raises StopException)
      ∧ existsb is_input_widget (trace run) = false
      ∧ get_llm_response_calls (trace run) = []
      ∧ existsb is_remote (trace run) = false.
Proof.
  revert environ.
  induction requests as [|W rest IH]; intros environ Henv Hload; cbn.
  { split; [reflexivity|]. intros run Hrun. destruct (not_elem_of_nil _ Hrun). }
  assert (Hk : load_dotenv W environ !! u8 "OPENAI_API_KEY" = None)
    by (apply Hload; [apply list_elem_of_here | exact Henv]).
  destruct (IH (load_dotenv W environ) Hk) as [Hlen Hruns].
  { intros W' env HW'. apply Hload. by apply list_elem_of_further. }
  split; [by rewrite Hlen|].
  intros run Hrun. apply elem_of_cons in Hrun as [->|Hrun]; [|by apply Hruns].
  rewrite (app_without_key W environ) by (by rewrite Hk).
  repeat split.
Qed.

Lemma missing_key_halts_every_run_witness :
  length (serve ∅ [world_ok (u8 "unused"); world_blank]) = 2%nat
  ∧ app world_blank ∅
    = ([st_error
          (u8 "OpenAI APIキーが設定されていません。.envファイルを確認してください。");
        st_stop],
       Raises StopException).
Proof.
  assert (H := missing_key_halts_every_run ∅
                 [world_ok (u8 "unused"); world_blank] (lookup_empty _)).
  destruct H as [Hlen Hruns].
  { intros W env HW Henv.
    apply elem_of_cons in HW as [->|HW]; [exact Henv|].
    apply list_elem_of_singleton in HW as ->. exact Henv. }
  split; [exact Hlen|].
  refine (proj1 (Hruns (app world_blank ∅) _)).
  apply list_elem_of_further, list_elem_of_here.
Defined.

(** C8. For every [user_query] that is empty or made of whitespace only,
    submitting the form shows the warning, [get_llm_response] is never
    called and nothing remote is touched. *)
Theorem blank_query_is_rejected (W : World) (environ : gmap str str) :
  forallb isspace (text_area_value W) = true →
  (submitted W (trace (app W environ)) = true →
   st_warning (u8 "相談内容を入力してください。") ∈ trace (app W environ))
  ∧ get_llm_response_calls (trace (app W environ)) = []
  ∧ existsb is_remote (trace (app W environ)) = false.
Proof.
  intros Hq.
  destruct (app_blank_query W environ Hq) as (Hcalls & Hremote & Hwarn).
  split; [|split; assumption].
  intros Hs. apply submitted_has_key in Hs as [Hk Hb]. by apply Hwarn.
Qed.

Lemma blank_query_is_rejected_witness :
  st_warning (u8 "相談内容を入力してください。")
  ∈ trace (app world_blank {[ u8 "OPENAI_API_KEY" := u8 "sk-test" ]})
  ∧ get_llm_response_calls
      (trace (app world_blank {[ u8 "OPENAI_API_KEY" := u8 "sk-test" ]})) = [].
Proof.
  assert (H := blank_query_is_rejected world_blank
                 {[ u8 "OPENAI_API_KEY" := u8 "sk-test" ]} eq_refl).
  split.
  - apply (proj1 H). vm_compute. reflexivity.
  - exact (proj1 (proj2 H)).
Defined.

(** C9. For every input pair the clients are constructed with one fixed
    configuration: the HTTP client, always, with no proxies and [trust_env]
    false; the chat client, whenever the HTTP client was built, with model
    "gpt-3.5-turbo", temperature 0.7, the process-wide key and that HTTP
    client.  It is the chat client the remote invocation is made on whenever
    both were built, and neither constructor call depends on the user text
    or the persona. *)
Theorem client_configuration_is_fixed (W : World)
    (OPENAI_API_KEY : option str) (user_input expert_type : str) :
  httpx_Client_calls
    (trace (get_llm_response W OPENAI_API_KEY user_input expert_type))
  = [{| proxies := None; trust_env := false |}]
  ∧ ChatOpenAI_calls
      (trace (get_llm_response W OPENAI_API_KEY user_input expert_type))
    = match
        httpx_Client_raises W {| proxies := None; trust_env := false |}
      with
      | Some _ => []
      | None =>
          [{| model_name := u8 "gpt-3.5-turbo";
              temperature := 0.7%float;
              openai_api_key := OPENAI_API_KEY;
              http_client := {| proxies := None; trust_env := false |} |}]
      end
  ∧ invoked_chats
      (trace (get_llm_response W OPENAI_API_KEY user_input expert_type))
    = match
        httpx_Client_raises W {| proxies := None; trust_env := false |},
        ChatOpenAI_raises W
          {| model_name := u8 "gpt-3.5-turbo";
             temperature := 0.7%float;
             openai_api_key := OPENAI_API_KEY;
             http_client := {| proxies := None; trust_env := false |} |}
      with
      | None, None =>
          [{| model_name := u8 "gpt-3.5-turbo";
              temperature := 0.7%float;
              openai_api_key := OPENAI_API_KEY;
              http_client := {| proxies := None; trust_env := false |} |}]
      | _, _ => []
      end
  ∧ ∀ user_input' expert_type' : str,
      httpx_Client_calls
        (trace (get_llm_response W OPENAI_API_KEY user_input' expert_type'))
      = httpx_Client_calls
          (trace (get_llm_response W OPENAI_API_KEY user_input expert_type))
      ∧ ChatOpenAI_calls
          (trace (get_llm_response W OPENAI_API_KEY user_input' expert_type'))
        = ChatOpenAI_calls
            (trace (get_llm_response W OPENAI_API_KEY user_input expert_type)).
Proof.
  split; [apply httpx_Client_calls_run|]. split; [|split].
  - apply ChatOpenAI_calls_run.
  - run_cases; reflexivity.
  - intros u' e'. by rewrite !httpx_Client_calls_run, !ChatOpenAI_calls_run.
Qed.

(** C10. Prompt construction keeps its two inputs apart.  Of any two
    conversations handed to the remote invocation, the system messages are
    the same when the calls had the same [expert_type], whatever the user
    inputs, and the user messages are the same when the calls had the same
    [user_input], whatever the personas. *)
Theorem prompt_noninterference (W1 W2 : World) (key1 key2 : option str)
    (user_input1 user_input2 expert_type1 expert_type2 : str)
    (messages1 messages2 : list BaseMessage) :
  messages1 ∈ invoked_messages
    (trace (get_llm_response W1 key1 user_input1 expert_type1)) →
  messages2 ∈ invoked_messages
    (trace (get_llm_response W2 key2 user_input2 expert_type2)) →
  (expert_type1 = expert_type2 →
   messages1 !! 0%nat = messages2 !! 0%nat)
  ∧ (user_input1 = user_input2 →
     messages1 !! 1%nat = messages2 !! 1%nat)
  ∧ role <$> messages1 !! 0%nat = Some system
  ∧ role <$> messages1 !! 1%nat = Some user.
Proof.
  intros H1%invoked_messages_run%list_elem_of_singleton
         H2%invoked_messages_run%list_elem_of_singleton.
  subst. repeat split; by intros ->.
Qed.

Lemma prompt_noninterference_witness :
  [SystemMessage (system_message_content (u8 "心理カウンセラー"));
   HumanMessage (u8 "first question")] !! 0%nat
  = [SystemMessage (system_message_content (u8 "心理カウンセラー"));
     HumanMessage (u8 "second question")] !! 0%nat.
Proof.
  refine (proj1 (prompt_noninterference
                   (world_ok (u8 "a")) (world_ok (u8 "b"))
                   sample_key None
                   (u8 "first question") (u8 "second question")
                   (u8 "心理カウンセラー") (u8 "心理カウンセラー")
                   _ _ _ _) eq_refl);
    vm_compute; apply list_elem_of_here.
Defined.

(** * Further properties of the script *)

(** ** What one call of [get_llm_response] leaves in the trace *)

Lemma get_llm_response_calls_run (W : World) (OPENAI_API_KEY : option str)
    (user_input expert_type : str) :
  get_llm_response_calls
    (trace (get_llm_response W OPENAI_API_KEY user_input expert_type))
  = [(user_input, expert_type)].
Proof. run_cases; reflexivity. Qed.

Lemma invoke_results_run (W : World) (OPENAI_API_KEY : option str)
    (user_input expert_type : str) :
  (length (invoke_results W
     (trace (get_llm_response W OPENAI_API_KEY user_input expert_type)))
   ≤ 1)%nat.
Proof. run_cases; lia. Qed.

(** A call renders no widget, shows no warning, writes no answer and does
    not stop the script. *)
Lemma get_llm_response_quiet (W : World) (OPENAI_API_KEY : option str)
    (user_input expert_type : str) (ev : Event) :
  ev ∈ trace (get_llm_response W OPENAI_API_KEY user_input expert_type) →
  is_input_widget ev = false ∧ is_st_write ev = false
  ∧ ev ≠ st_stop ∧ ∀ body, ev ≠ st_warning body.
Proof.
  intros Hev. run_cases; trace_mem; subst ev; repeat split; congruence.
Qed.

(** ** Error reports of [get_llm_response] *)

(** X3. When a constructor raises an [Exception], the run ends by reporting
    it twice, first on the page and then on the console, each time with the
    text of the exception appended to a fixed prefix (lines 54-57). *)
Theorem init_failure_is_reported (W : World) (OPENAI_API_KEY : option str)
    (user_input expert_type : str) (x : BaseException) :
  x ∈ construction_errors W
    (trace (get_llm_response W OPENAI_API_KEY user_input expert_type)) →
  isinstance_Exception x = true →
  [st_error (u8 "OpenAIモデルの初期化中にエラーが発生しました: " ++ exc_str x);
   print (u8 "Error initializing OpenAI model: " ++ exc_str x)]
  `suffix_of`
  trace (get_llm_response W OPENAI_API_KEY user_input expert_type).
Proof.
  intros Hx Hc. run_solve; subst x.
  - by eexists [_; _].
  - by eexists [_; _; _].
Qed.

Lemma init_failure_is_reported_witness :
  [st_error (u8 "OpenAIモデルの初期化中にエラーが発生しました: " ++ u8 "bad proxy");
   print (u8 "Error initializing OpenAI model: " ++ u8 "bad proxy")]
  `suffix_of`
  trace (get_llm_response (world_httpx_raises (ConnectionError (u8 "bad proxy")))
           sample_key sample_query (u8 "心理カウンセラー")).
Proof.
  apply (init_failure_is_reported _ _ _ _ (ConnectionError (u8 "bad proxy"))).
  - vm_compute. apply list_elem_of_here.
  - reflexivity.
Defined.

(** X4. When the remote invocation raises an [Exception], the run ends by
    reporting it on the page and then on the console, each time with the
    text of the exception appended to a fixed prefix (lines 70-73). *)
Theorem invoke_failure_is_reported (W : World) (OPENAI_API_KEY : option str)
    (user_input expert_type : str) (x : BaseException) :
  Raises x ∈ invoke_results W
    (trace (get_llm_response W OPENAI_API_KEY user_input expert_type)) →
  isinstance_Exception x = true →
  [st_error (u8 "LLMからの回答取得中にエラーが発生しました: " ++ exc_str x);
   print (u8 "Error getting response from LLM: " ++ exc_str x)]
  `suffix_of`
  trace (get_llm_response W OPENAI_API_KEY user_input expert_type).
Proof.
  intros Hx Hc. run_solve.
  match goal with H : Raises _ = Raises _ |- _ => injection H as -> end.
  by eexists [_; _; _; _].
Qed.

Lemma invoke_failure_is_reported_witness :
  [st_error (u8 "LLMからの回答取得中にエラーが発生しました: " ++ u8 "quota exceeded");
   print (u8 "Error getting response from LLM: " ++ u8 "quota exceeded")]
  `suffix_of`
  trace (get_llm_response
           (world_invoke_raises (ConnectionError (u8 "quota exceeded")))
           sample_key sample_query (u8 "健康アドバイザー")).
Proof.
  apply (invoke_failure_is_reported _ _ _ _
           (ConnectionError (u8 "quota exceeded"))).
  - vm_compute. apply list_elem_of_here.
  - reflexivity.
Defined.

(** X5. [get_llm_response] reports an error (on the page or on the console)
    exactly when a constructor or the remote invocation raised an
    [Exception]: a successful call reports nothing, and so does a call left
    by an exception outside [Exception]. *)
Theorem reports_only_on_failure (W : World) (OPENAI_API_KEY : option str)
    (user_input expert_type : str) :
  existsb is_report
    (trace (get_llm_response W OPENAI_API_KEY user_input expert_type)) = true
  ↔ ∃ x, isinstance_Exception x = true
         ∧ (x ∈ construction_errors W
                  (trace (get_llm_response W OPENAI_API_KEY user_input
                            expert_type))
            ∨ Raises x ∈ invoke_results W
                  (trace (get_llm_response W OPENAI_API_KEY user_input
                            expert_type))).
Proof.
  run_cases; world_answers; cbn in *; split.
  all: try (intros Hr; discriminate Hr).
  all: try (intros (x & Hc & [Hx|Hx]); trace_mem; congruence).
  all: try (intros _; eexists; split; [eassumption|]).
  all: first [ left; apply list_elem_of_here
             | right; apply list_elem_of_here
             | reflexivity ].
Qed.

(** X6. One call of [get_llm_response] calls [httpx.Client] exactly once,
    [ChatOpenAI] at most once and [chat.invoke] at most once: the function
    has no retry loop of its own (lines 43-74).  The requests the client
    library makes inside one [chat.invoke] are not counted. *)
Theorem at_most_one_invocation (W : World) (OPENAI_API_KEY : option str)
    (user_input expert_type : str) :
  (length (invoke_results W
     (trace (get_llm_response W OPENAI_API_KEY user_input expert_type)))
   ≤ 1)%nat
  ∧ length (httpx_Client_calls
      (trace (get_llm_response W OPENAI_API_KEY user_input expert_type)))
    = 1%nat
  ∧ (length (ChatOpenAI_calls
       (trace (get_llm_response W OPENAI_API_KEY user_input expert_type)))
     ≤ 1)%nat.
Proof.
  split; [apply invoke_results_run|].
  rewrite httpx_Client_calls_run, ChatOpenAI_calls_run.
  split; [reflexivity|]. case_match; cbn; lia.
Qed.

(** X7. A string returned by [get_llm_response] is the initialization
    failure text, the invocation failure text, or the content of the message
    the remote invocation returned; nothing else is ever returned. *)
Theorem returned_text_origin (W : World) (OPENAI_API_KEY : option str)
    (user_input expert_type s : str) :
  outcome (get_llm_response W OPENAI_API_KEY user_input expert_type)
  = Returns s →
  s = u8 "モデルの初期化に失敗しました。設定を確認してください。"
  ∨ s = u8 "回答の取得中にエラーが発生しました。しばらくしてからもう一度お試しください。"
  ∨ Returns {| content := s |}
    ∈ invoke_results W
        (trace (get_llm_response W OPENAI_API_KEY user_input expert_type)).
Proof.
  intros Hs. run_solve.
  all: injection Hs as <-.
  all: lazymatch goal with
       | |- u8 ?a = u8 ?a ∨ _ => left; reflexivity
       | |- _ ∨ u8 ?a = u8 ?a ∨ _ => right; left; reflexivity
       | |- _ => right; right
       end.
  match goal with a : AIMessage |- _ => destruct a end.
  apply list_elem_of_here.
Qed.

Lemma returned_text_origin_witness :
  Returns {| content := u8 "Sleep well." |}
  ∈ invoke_results (world_ok (u8 "Sleep well."))
      (trace (get_llm_response (world_ok (u8 "Sleep well.")) sample_key
                sample_query (u8 "健康アドバイザー"))).
Proof.
  destruct (returned_text_origin (world_ok (u8 "Sleep well.")) sample_key
              sample_query (u8 "健康アドバイザー") (u8 "Sleep well.")
              ltac:(vm_compute; reflexivity)) as [H|[H|H]].
  - vm_compute in H. discriminate H.
  - vm_compute in H. discriminate H.
  - exact H.
Defined.

(** X9. The instruction identifies the persona: the counselor instruction
    is resolved for the counselor tag only, the health-advisor instruction
    for the health-advisor tag only, and the generic one exactly for every
    other tag (lines 34-40). *)
Theorem instruction_identifies_persona (expert_type : str) :
  (system_message_content expert_type
   = u8 "あなたは経験豊富で共感力の高い心理カウンセラーです。利用者の悩みや感情に寄り添い、専門的な知識に基づいて具体的かつ建設的なアドバイスをしてください。"
   ↔ expert_type = u8 "心理カウンセラー")
  ∧ (system_message_content expert_type
     = u8 "あなたは知識が豊富で信頼できる健康アドバイザーです。栄養、運動、生活習慣に関する質問に対し、科学的根拠に基づいた分かりやすい情報と実践的なアドバイスを提供してください。"
     ↔ expert_type = u8 "健康アドバイザー")
  ∧ (system_message_content expert_type
     = u8 "あなたは親切で有能なAIアシスタントです。"
     ↔ expert_type ≠ u8 "心理カウンセラー"
       ∧ expert_type ≠ u8 "健康アドバイザー").
Proof.
  assert (T12 : u8 "心理カウンセラー" ≠ u8 "健康アドバイザー")
    by (intros H; vm_compute in H; discriminate H).
  assert (I12 : system_message_content (u8 "心理カウンセラー")
                ≠ system_message_content (u8 "健康アドバイザー"))
    by (intros H; vm_compute in H; discriminate H).
  assert (I13 : system_message_content (u8 "心理カウンセラー")
                ≠ u8 "あなたは親切で有能なAIアシスタントです。")
    by (intros H; vm_compute in H; discriminate H).
  assert (I23 : system_message_content (u8 "健康アドバイザー")
                ≠ u8 "あなたは親切で有能なAIアシスタントです。")
    by (intros H; vm_compute in H; discriminate H).
  assert (E1 : system_message_content (u8 "心理カウンセラー")
    = u8 "あなたは経験豊富で共感力の高い心理カウンセラーです。利用者の悩みや感情に寄り添い、専門的な知識に基づいて具体的かつ建設的なアドバイスをしてください。")
    by (vm_compute; reflexivity).
  assert (E2 : system_message_content (u8 "健康アドバイザー")
    = u8 "あなたは知識が豊富で信頼できる健康アドバイザーです。栄養、運動、生活習慣に関する質問に対し、科学的根拠に基づいた分かりやすい情報と実践的なアドバイスを提供してください。")
    by (vm_compute; reflexivity).
  rewrite <- E1, <- E2.
  destruct (decide (expert_type = u8 "心理カウンセラー")) as [->|H1].
  { split; [split; intros _; reflexivity|].
    split; [split; intros H; [destruct (I12 H) | destruct (T12 H)]|].
    split; [intros H; destruct (I13 H) | intros [H _]; destruct (H eq_refl)]. }
  destruct (decide (expert_type = u8 "健康アドバイザー")) as [->|H2].
  { split; [split; intros H; [destruct I12; symmetry; exact H
                             | destruct (H1 H)]|].
    split; [split; intros _; reflexivity|].
    split; [intros H; destruct (I23 H) | intros [_ H]; destruct (H eq_refl)]. }
  rewrite (system_message_content_other _ H1 H2).
  split; [split; intros H; [destruct I13; symmetry; exact H
                           | destruct (H1 H)]|].
  split; [split; intros H; [destruct I23; symmetry; exact H
                           | destruct (H2 H)]|].
  split; [intros _; split; assumption | intros _; reflexivity].
Qed.

(** ** The runs of the script past the key check *)

Section AppRuns.

Variable W : World.
Variable environ : gmap str str.

Let key := load_dotenv W environ !! u8 "OPENAI_API_KEY".
Let selected := radio_value W.
Let query := text_area_value W.
Let call := get_llm_response W key query selected.
Let form :=
  [st_title (u8 "AI専門家チャット");
   st_markdown (u8 "
### アプリ概要
このアプリケーションでは、AIの専門家とチャットすることができます。
相談したい専門家のタイプを選び、下のフォームに質問や相談内容を入力してください。

### 操作方法
1.  **専門家を選択**: ラジオボタンから「心理カウンセラー」または「健康アドバイザー」を選びます。
2.  **相談内容を入力**: テキストエリアに、専門家に聞きたいことや相談したい内容を具体的に入力します。
3.  **送信**: 「回答を生成」ボタンをクリックすると、AI専門家からの回答が表示されます。
");
   st_radio (u8 "相談したい専門家のタイプを選んでください:")
     [u8 "心理カウンセラー"; u8 "健康アドバイザー"] 0;
   st_text_area (selected ++ u8 "への相談内容を入力してください:") 150;
   st_button (u8 "回答を生成")].

(** With a usable key the run renders the form and then takes one of four
    ways: idle, warning, answer written, exception passed on. *)
Lemma app_with_key :
  truthy_opt key = true →
  app W environ =
  if button_value W then
    if truthy (strip query) then
      match snd call with
      | Returns s =>
          (form ++ st_spinner_enter (selected ++ u8 "が考えています...")
             :: fst call
             ++ [st_subheader (selected ++ u8 "からの回答:");
                 st_write s; st_spinner_exit],
           Returns tt)
      | Raises x =>
          (form ++ st_spinner_enter (selected ++ u8 "が考えています...")
             :: fst call ++ [st_spinner_exit],
           Raises x)
      end
    else (form ++ [st_warning (u8 "相談内容を入力してください。")], Returns tt)
  else (form, Returns tt).
Proof.
  intros Hk. unfold app. fold key. rewrite Hk. cbn.
  fold selected query.
  destruct (button_value W); [|reflexivity].
  destruct (truthy (strip query)); [|reflexivity]. cbn.
  fold call. destruct call as [t [s|x]]; cbn; [|reflexivity].
  by rewrite <- app_assoc.
Qed.

End AppRuns.

(** What the script dispatches is what its one call of [get_llm_response]
    dispatches, and that call is made only for a submitted, non-blank query
    under a usable key. *)
Lemma app_dispatch (W : World) (environ : gmap str str) :
  let key := load_dotenv W environ !! u8 "OPENAI_API_KEY" in
  let call := get_llm_response W key (text_area_value W) (radio_value W) in
  let go := truthy_opt key && button_value W
            && truthy (strip (text_area_value W)) in
  get_llm_response_calls (trace (app W environ))
  = (if go then get_llm_response_calls (trace call) else [])
  ∧ invoke_results W (trace (app W environ))
    = (if go then invoke_results W (trace call) else [])
  ∧ ChatOpenAI_calls (trace (app W environ))
    = (if go then ChatOpenAI_calls (trace call) else [])
  ∧ invoked_messages (trace (app W environ))
    = (if go then invoked_messages (trace call) else []).
Proof.
  intros key call go. subst go.
  destruct (truthy_opt key) eqn:Hk;
    [rewrite (app_with_key W environ Hk)
    |rewrite (app_without_key W environ Hk); repeat split].
  destruct (button_value W); [|repeat split].
  destruct (truthy (strip (text_area_value W))); [|repeat split].
  fold key call. unfold trace. destruct call as [t [s|x]]; cbn.
  all: unfold get_llm_response_calls, invoke_results, ChatOpenAI_calls,
         invoked_messages.
  all: rewrite !flat_map_app; cbn; rewrite !app_nil_r; repeat split.
Qed.

Lemma filter_none {A} (f : A → bool) (l : list A) :
  (∀ x, x ∈ l → f x = false) → List.filter f l = [].
Proof.
  induction l as [|a l IH]; intros H; [reflexivity|]. cbn.
  rewrite (H a) by apply list_elem_of_here.
  apply IH. intros x Hx. apply H. by apply list_elem_of_further.
Qed.

(** ** The key check *)

(** X1. A key that is present but empty is treated like a missing one: the
    run reports the error and stops at line 18, before any widget is
    rendered and before [get_llm_response] is called. *)
Theorem empty_key_halts_at_startup (W : World) (environ : gmap str str) :
  load_dotenv W environ !! u8 "OPENAI_API_KEY" = Some [] →
  app W environ
  = ([st_error
        (u8 "OpenAI APIキーが設定されていません。.envファイルを確認してください。");
      st_stop],
     Raises StopException).
Proof.
  intros Hk. apply app_without_key. exact (f_equal truthy_opt Hk).
Qed.

Lemma empty_key_halts_at_startup_witness :
  app (world_ok (u8 "unused")) environ_with_empty_key
  = ([st_error
        (u8 "OpenAI APIキーが設定されていません。.envファイルを確認してください。");
      st_stop],
     Raises StopException).
Proof.
  apply empty_key_halts_at_startup. vm_compute. reflexivity.
Defined.

(** X2. With a non-empty key the run never stops the script and renders the
    three input widgets once each, in the order radio, text area, button;
    the radio offers the two personas with the first preselected, and the
    label of the text area names the selected persona (lines 92-103). *)
Theorem usable_key_renders_form (W : World) (environ : gmap str str) :
  truthy_opt (load_dotenv W environ !! u8 "OPENAI_API_KEY") = true →
  List.filter is_input_widget (trace (app W environ))
  = [st_radio (u8 "相談したい専門家のタイプを選んでください:")
       [u8 "心理カウンセラー"; u8 "健康アドバイザー"] 0;
     st_text_area (radio_value W ++ u8 "への相談内容を入力してください:") 150;
     st_button (u8 "回答を生成")]
  ∧ st_stop ∉ trace (app W environ).
Proof.
  intros Hk. rewrite (app_with_key W environ Hk).
  set (call := get_llm_response W _ _ _).
  assert (Hq := get_llm_response_quiet W
                  (load_dotenv W environ !! u8 "OPENAI_API_KEY")
                  (text_area_value W) (radio_value W)).
  fold call in Hq. unfold trace in *.
  assert (Hf : List.filter is_input_widget (fst call) = []).
  { apply filter_none. intros ev Hev. by destruct (Hq ev Hev). }
  assert (Hs : st_stop ∉ fst call).
  { intros Hev. by destruct (Hq _ Hev) as (_ & _ & Hne & _). }
  destruct (button_value W); [|split; [reflexivity|]].
  2: { intros H. cbn in H. trace_mem; discriminate H. }
  destruct (truthy (strip (text_area_value W))); [|split; [reflexivity|]].
  2: { intros H. cbn in H. trace_mem; discriminate H. }
  destruct (snd call); cbn; rewrite List.filter_app, Hf; cbn.
  all: split; [reflexivity|].
  all: intros H; trace_mem; try discriminate H.
  all: apply elem_of_app in H as [H|H]; [by apply Hs|].
  all: trace_mem; discriminate H.
Qed.

Lemma usable_key_renders_form_witness :
  List.filter is_input_widget (trace (app world_blank environ_with_key))
  = [st_radio (u8 "相談したい専門家のタイプを選んでください:")
       [u8 "心理カウンセラー"; u8 "健康アドバイザー"] 0;
     st_text_area (u8 "心理カウンセラー" ++ u8 "への相談内容を入力してください:") 150;
     st_button (u8 "回答を生成")].
Proof.
  refine (proj1 (usable_key_renders_form world_blank environ_with_key _)).
  vm_compute. reflexivity.
Defined.

(** ** Submitting the form *)

Lemma truthy_strip (s : str) :
  truthy (strip s) = negb (forallb isspace s).
Proof.
  destruct (forallb isspace s) eqn:Hb.
  - by rewrite (strip_blank s Hb).
  - destruct (strip s) eqn:Hs; [|reflexivity].
    apply strip_nil_iff in Hs. congruence.
Qed.

(** X10. A submitted query that holds a character other than whitespace is
    dispatched once, with the text of the text area as it is (the stripped
    text is used for the blank test only) and the persona the radio
    returned (lines 103-109). *)
Theorem submitted_query_is_dispatched_verbatim (W : World)
    (environ : gmap str str) :
  truthy_opt (load_dotenv W environ !! u8 "OPENAI_API_KEY") = true →
  button_value W = true →
  forallb isspace (text_area_value W) = false →
  get_llm_response_calls (trace (app W environ))
  = [(text_area_value W, radio_value W)]
  ∧ invoked_messages (trace (app W environ))
    ⊆ [[SystemMessage (system_message_content (radio_value W));
        HumanMessage (text_area_value W)]].
Proof.
  intros Hk Hb Hq.
  destruct (app_dispatch W environ) as (Hc & _ & _ & Hm).
  rewrite Hk, Hb, truthy_strip, Hq in Hc, Hm. cbn in Hc, Hm.
  rewrite Hc, Hm. split.
  - apply get_llm_response_calls_run.
  - apply invoked_messages_run.
Qed.

Lemma submitted_query_is_dispatched_verbatim_witness :
  get_llm_response_calls
    (trace (app (answering None None (Returns {| content := u8 "ok" |})
                   (u8 "  I cannot sleep.  ") true)
              environ_with_key))
  = [(u8 "  I cannot sleep.  ", u8 "心理カウンセラー")].
Proof.
  refine (proj1 (submitted_query_is_dispatched_verbatim
                   (answering None None (Returns {| content := u8 "ok" |})
                      (u8 "  I cannot sleep.  ") true)
                   environ_with_key _ _ _));
    vm_compute; reflexivity.
Defined.

(** X11. Whatever string [get_llm_response] returns for a submitted query,
    the model's answer or one of the two failure texts, the run ends by
    writing a subheader that names the persona and then that string, and
    writes nothing else (lines 109-111). *)
Theorem answer_is_displayed (W : World) (environ : gmap str str) (s : str) :
  truthy_opt (load_dotenv W environ !! u8 "OPENAI_API_KEY") = true →
  button_value W = true →
  forallb isspace (text_area_value W) = false →
  outcome (get_llm_response W (load_dotenv W environ !! u8 "OPENAI_API_KEY")
             (text_area_value W) (radio_value W))
  = Returns s →
  [st_subheader (radio_value W ++ u8 "からの回答:"); st_write s;
   st_spinner_exit]
  `suffix_of` trace (app W environ)
  ∧ List.filter is_st_write (trace (app W environ)) = [st_write s]
  ∧ outcome (app W environ) = Returns tt.
Proof.
  intros Hk Hb Hq Hs. rewrite (app_with_key W environ Hk).
  rewrite Hb, truthy_strip, Hq. cbn.
  assert (Hquiet := get_llm_response_quiet W
                      (load_dotenv W environ !! u8 "OPENAI_API_KEY")
                      (text_area_value W) (radio_value W)).
  unfold outcome, trace in *. rewrite Hs. cbn. split; [|split].
  - by eexists (_ :: _ :: _ :: _ :: _ :: _ :: _).
  - rewrite List.filter_app, filter_none; [reflexivity|].
    intros ev Hev. by destruct (Hquiet ev Hev) as (_ & ? & _).
  - reflexivity.
Qed.

Lemma answer_is_displayed_witness :
  List.filter is_st_write
    (trace (app (world_invoke_raises (ConnectionError (u8 "timed out")))
              environ_with_key))
  = [st_write
       (u8 "回答の取得中にエラーが発生しました。しばらくしてからもう一度お試しください。")].
Proof.
  refine (proj1 (proj2 (answer_is_displayed
                          (world_invoke_raises
                             (ConnectionError (u8 "timed out")))
                          environ_with_key _ _ _ _ _)));
    vm_compute; reflexivity.
Defined.

(** X12. Until the button is pressed the run only renders the page: no
    warning, no answer, no call of [get_llm_response], nothing remote
    (lines 103 and 112-115). *)
Theorem idle_form_does_nothing (W : World) (environ : gmap str str) :
  truthy_opt (load_dotenv W environ !! u8 "OPENAI_API_KEY") = true →
  button_value W = false →
  get_llm_response_calls (trace (app W environ)) = []
  ∧ existsb is_remote (trace (app W environ)) = false
  ∧ existsb is_st_write (trace (app W environ)) = false
  ∧ (∀ body, st_warning body ∉ trace (app W environ))
  ∧ outcome (app W environ) = Returns tt.
Proof.
  intros Hk Hb. rewrite (app_with_key W environ Hk), Hb. cbn.
  repeat split. intros body H. trace_mem; discriminate H.
Qed.

Lemma idle_form_does_nothing_witness :
  get_llm_response_calls
    (trace (app (answering None None (Returns {| content := u8 "ok" |})
                   sample_query false)
              environ_with_key)) = []
  ∧ outcome (app (answering None None (Returns {| content := u8 "ok" |})
                    sample_query false)
               environ_with_key) = Returns tt.
Proof.
  assert (H := idle_form_does_nothing
                 (answering None None (Returns {| content := u8 "ok" |})
                    sample_query false)
                 environ_with_key
                 ltac:(vm_compute; reflexivity) eq_refl).
  split; [exact (proj1 H) | exact (proj2 (proj2 (proj2 (proj2 H))))].
Defined.

(** X13. When the form is submitted under a usable key, the warning is shown
    exactly when the query is blank (empty or whitespace only): a query with
    any other character is never answered by the warning (lines 104-105). *)
Theorem warning_iff_blank (W : World) (environ : gmap str str) :
  truthy_opt (load_dotenv W environ !! u8 "OPENAI_API_KEY") = true →
  button_value W = true →
  st_warning (u8 "相談内容を入力してください。") ∈ trace (app W environ)
  ↔ forallb isspace (text_area_value W) = true.
Proof.
  intros Hk Hb. rewrite (app_with_key W environ Hk), Hb, truthy_strip.
  assert (Hquiet := get_llm_response_quiet W
                      (load_dotenv W environ !! u8 "OPENAI_API_KEY")
                      (text_area_value W) (radio_value W)).
  unfold trace in *.
  destruct (forallb isspace (text_area_value W)); cbn.
  - split; [reflexivity|]. intros _. do 5 apply list_elem_of_further.
    apply list_elem_of_here.
  - split; [|discriminate]. intros H.
    destruct (snd (get_llm_response W _ _ _)); cbn in H.
    all: trace_mem; try discriminate H.
    all: apply elem_of_app in H as [H|H];
      [destruct (Hquiet _ H) as (_ & _ & _ & Hw); destruct (Hw _ eq_refl)|].
    all: trace_mem; discriminate H.
Qed.

Lemma warning_iff_blank_witness :
  st_warning (u8 "相談内容を入力してください。")
  ∈ trace (app (answering None None (Returns {| content := u8 "ok" |})
                  [] true)
             environ_with_key).
Proof.
  apply (warning_iff_blank
           (answering None None (Returns {| content := u8 "ok" |}) [] true)
           environ_with_key);
    vm_compute; reflexivity.
Defined.

(** ** The script as a whole *)

(** X14. Every chat client a run of the script builds is given the key that
    passed the check of line 16, so it is never built with a missing or an
    empty key (lines 8, 16-18 and 51). *)
Theorem client_key_is_checked_key (W : World) (environ : gmap str str)
    (c : ChatOpenAI) :
  c ∈ ChatOpenAI_calls (trace (app W environ)) →
  openai_api_key c = load_dotenv W environ !! u8 "OPENAI_API_KEY"
  ∧ truthy_opt (openai_api_key c) = true.
Proof.
  intros Hc. destruct (app_dispatch W environ) as (_ & _ & Hcalls & _).
  rewrite Hcalls in Hc.
  destruct (truthy_opt (load_dotenv W environ !! u8 "OPENAI_API_KEY"))
    eqn:Hk; cbn in Hc; [|trace_mem].
  destruct (button_value W && truthy (strip (text_area_value W)));
    [|trace_mem].
  rewrite ChatOpenAI_calls_run in Hc.
  destruct (httpx_Client_raises W _); trace_mem.
  subst c. cbn. by split.
Qed.

Lemma client_key_is_checked_key_witness :
  Some (u8 "sk-test") = environ_with_key !! u8 "OPENAI_API_KEY"
  ∧ truthy_opt (Some (u8 "sk-test")) = true.
Proof.
  apply (client_key_is_checked_key (world_ok (u8 "ok")) environ_with_key
           {| model_name := u8 "gpt-3.5-turbo";
              temperature := 0.7%float;
              openai_api_key := Some (u8 "sk-test");
              http_client := {| proxies := None; trust_env := false |} |}).
  vm_compute. apply list_elem_of_here.
Defined.

(** X15. When the radio returns one of the two options it offers, the
    system message of every conversation the script sends is the
    instruction of that persona: the generic fallback of line 40 is not
    reached from the form (lines 92-97 and 34-40). *)
Theorem form_selection_never_falls_back (W : World)
    (environ : gmap str str) (messages : list BaseMessage) :
  radio_value W ∈ [u8 "心理カウンセラー"; u8 "健康アドバイザー"] →
  messages ∈ invoked_messages (trace (app W environ)) →
  messages
  = [SystemMessage
       (u8 "あなたは経験豊富で共感力の高い心理カウンセラーです。利用者の悩みや感情に寄り添い、専門的な知識に基づいて具体的かつ建設的なアドバイスをしてください。");
     HumanMessage (text_area_value W)]
  ∨ messages
    = [SystemMessage
         (u8 "あなたは知識が豊富で信頼できる健康アドバイザーです。栄養、運動、生活習慣に関する質問に対し、科学的根拠に基づいた分かりやすい情報と実践的なアドバイスを提供してください。");
       HumanMessage (text_area_value W)].
Proof.
  intros Hr Hm. destruct (app_dispatch W environ) as (_ & _ & _ & Hmsgs).
  rewrite Hmsgs in Hm. case_match; [|trace_mem].
  apply invoked_messages_run in Hm.
  assert (E1 : system_message_content (u8 "心理カウンセラー")
    = u8 "あなたは経験豊富で共感力の高い心理カウンセラーです。利用者の悩みや感情に寄り添い、専門的な知識に基づいて具体的かつ建設的なアドバイスをしてください。")
    by (vm_compute; reflexivity).
  assert (E2 : system_message_content (u8 "健康アドバイザー")
    = u8 "あなたは知識が豊富で信頼できる健康アドバイザーです。栄養、運動、生活習慣に関する質問に対し、科学的根拠に基づいた分かりやすい情報と実践的なアドバイスを提供してください。")
    by (vm_compute; reflexivity).
  trace_mem; subst messages; rewrite Hr.
  - left. by rewrite E1.
  - right. by rewrite E2.
Qed.

Lemma form_selection_never_falls_back_witness :
  [SystemMessage (system_message_content (u8 "心理カウンセラー"));
   HumanMessage sample_query]
  = [SystemMessage
       (u8 "あなたは経験豊富で共感力の高い心理カウンセラーです。利用者の悩みや感情に寄り添い、専門的な知識に基づいて具体的かつ建設的なアドバイスをしてください。");
     HumanMessage sample_query]
  ∨ [SystemMessage (system_message_content (u8 "心理カウンセラー"));
     HumanMessage sample_query]
    = [SystemMessage
         (u8 "あなたは知識が豊富で信頼できる健康アドバイザーです。栄養、運動、生活習慣に関する質問に対し、科学的根拠に基づいた分かりやすい情報と実践的なアドバイスを提供してください。");
       HumanMessage sample_query].
Proof.
  apply (form_selection_never_falls_back (world_ok (u8 "ok"))
           environ_with_key).
  - apply list_elem_of_here.
  - vm_compute. apply list_elem_of_here.
Defined.

(** X17. One run of the script calls [get_llm_response] at most once and
    [chat.invoke] at most once.  The requests the client library makes
    inside one [chat.invoke] are not counted. *)
Theorem one_dispatch_per_run (W : World) (environ : gmap str str) :
  (length (get_llm_response_calls (trace (app W environ))) ≤ 1)%nat
  ∧ (length (invoke_results W (trace (app W environ))) ≤ 1)%nat.
Proof.
  destruct (app_dispatch W environ) as (Hc & Hi & _ & _).
  rewrite Hc, Hi. case_match; cbn; [|lia].
  rewrite get_llm_response_calls_run. split; [cbn; lia|].
  apply invoke_results_run.
Qed.

(** X18. [get_llm_response] checks neither of its inputs: the remote model
    is invoked, with the system and user messages, exactly when both
    constructors returned, also for an empty user text and an unknown
    persona (lines 43-68). *)
Theorem invoked_iff_constructed (W : World) (OPENAI_API_KEY : option str)
    (user_input expert_type : str) :
  construction_errors W
    (trace (get_llm_response W OPENAI_API_KEY user_input expert_type)) = []
  ↔ invoked_messages
      (trace (get_llm_response W OPENAI_API_KEY user_input expert_type))
    = [[SystemMessage (system_message_content expert_type);
        HumanMessage user_input]].
Proof.
  run_cases; world_answers; cbn; split; intros Hnil;
    first [reflexivity | discriminate Hnil].
Qed.
